(** * Account provisioning scripts of the vcsSHARK replication kit

    The repository ships two mongo-shell scripts, [setupMongoDB.js] and a
    shorter variant of it.  Both are flat lists of three kinds of
    statements: [use <db>], [db.dropUser(<name>)] and
    [db.createUser(<document>, <write concern>)].

    This file embeds the two scripts statement by statement, gives the
    three shell commands their meaning on the server's user collection,
    and proves what the scripts do to that collection.

    The scripts only call the commands; what the commands do is the
    shell's and the server's business and is written here as their manual
    gives it: [use] rebinds the shell's [db], [dropUser] removes an
    account and answers whether there was one, [createUser] adds an
    account and refuses a name already taken on that database.  Faults
    from outside the script (a lost connection, a session without the
    privilege to manage users) are not part of the model. *)

From Stdlib Require Import ZArith.
From stdpp Require Import gmap strings list fin_maps.

Open Scope string_scope.

(** ** Syntax: what a script is made of *)

(** An element of a [roles: [...]] array: either a bare string, or an
    object [{ role: ..., db: ... }]. *)
Inductive role_entry : Type :=
  | BareRole (role : string)
  | ScopedRole (role db : string).

(** The optional second argument of [createUser]:
    [{ w: ..., wtimeout: ... }]. *)
Record write_concern : Type := WriteConcern {
  w : string;
  wtimeout : Z
}.

(** The first argument of [createUser]:
    [{ user: ..., pwd: ..., roles: [...] }]. *)
Record user_doc : Type := UserDoc {
  user : string;
  pwd : string;
  roles : list role_entry
}.

(** The three statements the scripts use.  There is no conditional, no
    loop and no exception handler in either file. *)
Inductive stmt : Type :=
  | Use (name : string)
  | DropUser (username : string)
  | CreateUser (doc : user_doc) (wc : option write_concern).

(** ** The two scripts, statement by statement *)

(** [src/setupMongoDB.js] *)
Definition setupMongoDB : list stmt :=
  [ Use "testRun";
    DropUser "root";
    CreateUser {| user := "root";
                  pwd := "balla1234$";
                  roles := [ ScopedRole "clusterAdmin" "admin";
                             ScopedRole "readAnyDatabase" "admin";
                             BareRole "readWrite" ] |}
               (Some {| w := "majority"; wtimeout := 5000 |});
    Use "test";
    DropUser "root";
    CreateUser {| user := "root";
                  pwd := "root";
                  roles := [ ScopedRole "clusterAdmin" "admin";
                             ScopedRole "readAnyDatabase" "admin";
                             BareRole "readWrite" ] |}
               (Some {| w := "majority"; wtimeout := 5000 |});
    Use "admin";
    DropUser "root";
    CreateUser {| user := "root";
                  pwd := "balla1234$";
                  roles := [ ScopedRole "readWrite" "config";
                             BareRole "clusterAdmin" ] |}
               None;
    Use "vcsshark";
    DropUser "root";
    CreateUser {| user := "root";
                  pwd := "root";
                  roles := [ ScopedRole "clusterAdmin" "admin";
                             ScopedRole "readAnyDatabase" "admin";
                             BareRole "readWrite" ] |}
               (Some {| w := "majority"; wtimeout := 5000 |}) ].

(** [src/unnamed/part_000], the shorter variant. *)
Definition part_000 : list stmt :=
  [ Use "testRun";
    DropUser "root";
    CreateUser {| user := "root";
                  pwd := "balla1234$";
                  roles := [ ScopedRole "clusterAdmin" "admin";
                             ScopedRole "readAnyDatabase" "admin";
                             BareRole "readWrite" ] |}
               (Some {| w := "majority"; wtimeout := 5000 |});
    Use "admin";
    DropUser "root";
    CreateUser {| user := "root";
                  pwd := "balla1234$";
                  roles := [ ScopedRole "readWrite" "config";
                             BareRole "clusterAdmin" ] |}
               None ].

(** ** The server side: accounts and the shell session *)

(** A stored account: its password and its role grants, each grant a
    pair (role name, database) with the database made explicit. *)
Record account : Type := Account {
  acct_pwd : string;
  acct_roles : list (string * string)
}.

(** A shell session: the shell's [db] variable and the server's user
    collection, keyed by (database, user name). *)
Record shell : Type := Shell {
  db : string;
  users : gmap (string * string) account
}.

(** A server on which no account exists yet, seen from a shell that has
    just connected (the shell starts on database [test]). *)
Definition fresh : shell := {| db := "test"; users := ∅ |}.

(** What a statement hands back to the shell. *)
Inductive value : Type :=
  | Undefined
  | Boolean (b : bool).

Inductive error : Type :=
  | UserAlreadyExists (dbname username : string).

Inductive completion : Type :=
  | Normal (v : value) (sh : shell)
  | Throw (e : error).

(** A bare role name is a role of the database the statement runs in. *)
Definition resolve (cur : string) (r : role_entry) : string * string :=
  match r with
  | BareRole role => (role, cur)
  | ScopedRole role d => (role, d)
  end.

Definition stored (cur : string) (doc : user_doc) : account :=
  {| acct_pwd := pwd doc; acct_roles := map (resolve cur) (roles doc) |}.

(** [use name]: the shell's [db] now denotes database [name]. *)
Definition use (name : string) (sh : shell) : completion :=
  Normal Undefined {| db := name; users := users sh |}.

(** [db.dropUser(username)]: removes the account from the current
    database and answers [true]; answers [false], changing nothing, when
    there is no such account. *)
Definition dropUser (username : string) (sh : shell) : completion :=
  match users sh !! (db sh, username) with
  | Some _ =>
      Normal (Boolean true)
             {| db := db sh; users := delete (db sh, username) (users sh) |}
  | None => Normal (Boolean false) sh
  end.

(** [db.createUser(doc, wc)]: adds the account to the current database;
    the server refuses a name that is already taken there.  The write
    concern only tells the server how long to wait for replicas; on the
    single server of this model it has no effect on the collection. *)
Definition createUser (doc : user_doc) (wc : option write_concern)
    (sh : shell) : completion :=
  match users sh !! (db sh, user doc) with
  | Some _ => Throw (UserAlreadyExists (db sh) (user doc))
  | None =>
      Normal Undefined
             {| db := db sh;
                users := <[(db sh, user doc) := stored (db sh) doc]> (users sh) |}
  end.

Definition exec (s : stmt) (sh : shell) : completion :=
  match s with
  | Use name => use name sh
  | DropUser username => dropUser username sh
  | CreateUser doc wc => createUser doc wc sh
  end.

(** ** Running a script *)

(** What the session did with one statement: the database it ran in, the
    statement, and how it ended. *)
Inductive outcome : Type :=
  | Returned (v : value)
  | Raised (e : error).

Record event : Type := Event {
  ev_db : string;
  ev_stmt : stmt;
  ev_outcome : outcome
}.

(** The scripts contain no handler, so what happens after a statement
    that throws is decided by whatever feeds the script to the server:
    a script loader gives up, a line-by-line console goes on with the next
    line.  Both are covered. *)
Inductive error_policy : Type :=
  | StopAtError
  | ContinueAfterError.

Fixpoint run (pol : error_policy) (script : list stmt) (sh : shell)
    : list event * shell :=
  match script with
  | [] => ([], sh)
  | s :: rest =>
      match exec s sh with
      | Normal v sh' =>
          let r := run pol rest sh' in
          (Event (db sh) s (Returned v) :: r.1, r.2)
      | Throw e =>
          match pol with
          | StopAtError => ([Event (db sh) s (Raised e)], sh)
          | ContinueAfterError =>
              let r := run pol rest sh in
              (Event (db sh) s (Raised e) :: r.1, r.2)
          end
      end
  end.

Definition transcript (r : list event * shell) : list event := r.1.
Definition final (r : list event * shell) : shell := r.2.

(** ** Observations *)

(** [db.getUsers()] for database [d]: its accounts, by name. *)
Definition getUsers (d : string) (sh : shell) : list (string * account) :=
  omap (λ '((d', u), a), if decide (d' = d) then Some (u, a) else None)
       (map_to_list (users sh)).

Definition completed (e : event) : bool :=
  match ev_outcome e with
  | Returned _ => true
  | Raised _ => false
  end.

(** The databases a session switched to, in the order it did. *)
Definition activated (log : list event) : list string :=
  omap (λ e, match ev_stmt e, ev_outcome e with
             | Use name, Returned _ => Some name
             | _, _ => None
             end) log.

(** The accounts a session created: database, document, write concern. *)
Definition creations (log : list event)
    : list (string * user_doc * option write_concern) :=
  omap (λ e, match ev_stmt e, ev_outcome e with
             | CreateUser doc wc, Returned _ => Some (ev_db e, doc, wc)
             | _, _ => None
             end) log.

(** What one [use d; dropUser; createUser] group leaves behind, in closed
    form ([run_group] below proves it against [run]). *)
Definition provision (d : string) (doc : user_doc) (sh : shell) : shell :=
  {| db := d;
     users := <[(d, user doc) := stored d doc]> (users sh) |}.

(** The accounts [setupMongoDB] installs, as the server stores them. *)
Definition testRun_root : account :=
  {| acct_pwd := "balla1234$";
     acct_roles := [ ("clusterAdmin", "admin");
                     ("readAnyDatabase", "admin");
                     ("readWrite", "testRun") ] |}.

Definition test_root : account :=
  {| acct_pwd := "root";
     acct_roles := [ ("clusterAdmin", "admin");
                     ("readAnyDatabase", "admin");
                     ("readWrite", "test") ] |}.

Definition admin_root : account :=
  {| acct_pwd := "balla1234$";
     acct_roles := [ ("readWrite", "config");
                     ("clusterAdmin", "admin") ] |}.

Definition vcsshark_root : account :=
  {| acct_pwd := "root";
     acct_roles := [ ("clusterAdmin", "admin");
                     ("readAnyDatabase", "admin");
                     ("readWrite", "vcsshark") ] |}.

Definition majority_5000 : write_concern :=
  {| w := "majority"; wtimeout := 5000 |}.

Definition is_create (s : stmt) : bool :=
  match s with
  | CreateUser _ _ => true
  | _ => false
  end.

Definition is_create_without_wc (s : stmt) : bool :=
  match s with
  | CreateUser _ None => true
  | _ => false
  end.

(** The user collection after [setupMongoDB], started on collection [m],
    in closed form ([final_setupMongoDB] below proves that this is what
    [run] computes). *)
Definition setup_users (m : gmap (string * string) account)
    : gmap (string * string) account :=
  <[("vcsshark", "root") := vcsshark_root]>
    (<[("admin", "root") := admin_root]>
       (<[("test", "root") := test_root]>
          (<[("testRun", "root") := testRun_root]> m))).

(** The same for [part_000] ([final_part_000] below). *)
Definition part_users (m : gmap (string * string) account)
    : gmap (string * string) account :=
  <[("admin", "root") := admin_root]>
    (<[("testRun", "root") := testRun_root]> m).

(** What the [dropUser] statements of a session answered, in order. *)
Definition drop_answers (log : list event) : list outcome :=
  omap (λ e, match ev_stmt e with
             | DropUser _ => Some (ev_outcome e)
             | _ => None
             end) log.

(** ** Sessions against a server about which nothing is known

    [use] is carried out by the shell itself: it rebinds [db] and has no
    way to fail.  [db.dropUser] and [db.createUser] are calls on the
    server, and a call can end in any way: with any answer, with a throw
    (a refused name, a missing privilege, a lost connection), and with
    any change to the user collection.  What such a call cannot do is
    rebind the shell's [db].  A [server] fixes, for the statement at each
    position of a session, how the call ends. *)
Definition server : Type :=
  nat → stmt → shell → outcome * gmap (string * string) account.

Definition exec_on (srv : server) (i : nat) (s : stmt) (sh : shell)
    : outcome * shell :=
  match s with
  | Use name => (Returned Undefined, {| db := name; users := users sh |})
  | _ => ((srv i s sh).1, {| db := db sh; users := (srv i s sh).2 |})
  end.

Fixpoint run_on (srv : server) (pol : error_policy) (i : nat)
    (script : list stmt) (sh : shell) : list event * shell :=
  match script with
  | [] => ([], sh)
  | s :: rest =>
      match (exec_on srv i s sh).1, pol with
      | Raised e, StopAtError =>
          ([Event (db sh) s (Raised e)], (exec_on srv i s sh).2)
      | o, _ =>
          let r := run_on srv pol (S i) rest (exec_on srv i s sh).2 in
          (Event (db sh) s o :: r.1, r.2)
      end
  end.

(** The server of the sections above, as one such [server]. *)
Definition mongod : server :=
  λ _ s sh,
    match exec s sh with
    | Normal v sh' => (Returned v, users sh')
    | Throw e => (Raised e, users sh)
    end.

(** The database each statement of a script is written to run in, when
    the shell starts on [d]; and the database the shell is on after the
    whole script. *)
Fixpoint dbs_before (d : string) (script : list stmt) : list string :=
  match script with
  | [] => []
  | Use name :: rest => d :: dbs_before name rest
  | _ :: rest => d :: dbs_before d rest
  end.

Fixpoint db_after (d : string) (script : list stmt) : string :=
  match script with
  | [] => d
  | Use name :: rest => db_after name rest
  | _ :: rest => db_after d rest
  end.

(** * Properties *)

(** ** Single statements *)

Lemma use_switches name sh :
  exec (Use name) sh = Normal Undefined {| db := name; users := users sh |}.
Proof. reflexivity. Qed.

(** Dropping an account that is not there is answered with [false] and
    changes nothing. *)
Lemma dropUser_absent username sh :
  users sh !! (db sh, username) = None →
  exec (DropUser username) sh = Normal (Boolean false) sh.
Proof. intros Hnone. simpl. unfold dropUser. by rewrite Hnone. Qed.

(** Whatever the answer, the account is gone afterwards and nothing else
    has moved. *)
Lemma dropUser_spec username sh :
  exec (DropUser username) sh =
    Normal (Boolean (bool_decide (is_Some (users sh !! (db sh, username)))))
           {| db := db sh; users := delete (db sh, username) (users sh) |}.
Proof.
  simpl. unfold dropUser. destruct sh as [d m]; simpl.
  destruct (m !! (d, username)) as [a|] eqn:Hlook.
  - rewrite bool_decide_eq_true_2 by eauto. reflexivity.
  - rewrite bool_decide_eq_false_2 by (intros [? ?]; discriminate).
    by rewrite delete_id.
Qed.

Lemma createUser_taken doc wc sh :
  is_Some (users sh !! (db sh, user doc)) →
  exec (CreateUser doc wc) sh = Throw (UserAlreadyExists (db sh) (user doc)).
Proof. intros [a Ha]. simpl. unfold createUser. by rewrite Ha. Qed.

Lemma createUser_free doc wc sh :
  users sh !! (db sh, user doc) = None →
  exec (CreateUser doc wc) sh =
    Normal Undefined
           {| db := db sh;
              users := <[(db sh, user doc) := stored (db sh) doc]> (users sh) |}.
Proof. intros Hnone. simpl. unfold createUser. by rewrite Hnone. Qed.

(** ** One group of three statements *)

Lemma run_cons_normal pol s rest sh v sh' :
  exec s sh = Normal v sh' →
  run pol (s :: rest) sh =
    (Event (db sh) s (Returned v) :: (run pol rest sh').1, (run pol rest sh').2).
Proof. intros Hexec. simpl. by rewrite Hexec. Qed.

(** Because the drop comes first, the create of a group never finds the
    name taken: the group always runs through, from any state. *)
Lemma run_group pol d username doc wc rest sh :
  username = user doc →
  run pol (Use d :: DropUser username :: CreateUser doc wc :: rest) sh =
    (Event (db sh) (Use d) (Returned Undefined)
       :: Event d (DropUser username)
                (Returned (Boolean (bool_decide (is_Some (users sh !! (d, username))))))
       :: Event d (CreateUser doc wc) (Returned Undefined)
       :: (run pol rest (provision d doc sh)).1,
     (run pol rest (provision d doc sh)).2).
Proof.
  intros ->.
  rewrite (run_cons_normal _ _ _ _ _ _ (use_switches d sh)).
  rewrite (run_cons_normal _ _ _ _ _ _ (dropUser_spec (user doc) _)).
  cbn [db users fst snd].
  erewrite run_cons_normal; last first.
  { apply createUser_free. cbn [db users]. apply lookup_delete_eq. }
  cbn [db users fst snd]. rewrite insert_delete_eq. reflexivity.
Qed.

(** ** Whole scripts, from any state *)

Ltac step_groups :=
  repeat (rewrite run_group by reflexivity; cbn [fst snd]).

Lemma final_setupMongoDB pol sh :
  final (run pol setupMongoDB sh) =
    {| db := "vcsshark"; users := setup_users (users sh) |}.
Proof. unfold final, setupMongoDB. step_groups. reflexivity. Qed.

Lemma final_part_000 pol sh :
  final (run pol part_000 sh) =
    {| db := "admin"; users := part_users (users sh) |}.
Proof. unfold final, part_000. step_groups. reflexivity. Qed.

Lemma stmts_setupMongoDB pol sh :
  map ev_stmt (transcript (run pol setupMongoDB sh)) = setupMongoDB.
Proof. unfold transcript, setupMongoDB. step_groups. reflexivity. Qed.

Lemma completed_setupMongoDB pol sh :
  forallb completed (transcript (run pol setupMongoDB sh)) = true.
Proof. unfold transcript, setupMongoDB. step_groups. reflexivity. Qed.

Lemma creations_setupMongoDB pol sh :
  creations (transcript (run pol setupMongoDB sh)) =
    [ ("testRun",
       {| user := "root"; pwd := "balla1234$";
          roles := [ ScopedRole "clusterAdmin" "admin";
                     ScopedRole "readAnyDatabase" "admin";
                     BareRole "readWrite" ] |},
       Some majority_5000);
      ("test",
       {| user := "root"; pwd := "root";
          roles := [ ScopedRole "clusterAdmin" "admin";
                     ScopedRole "readAnyDatabase" "admin";
                     BareRole "readWrite" ] |},
       Some majority_5000);
      ("admin",
       {| user := "root"; pwd := "balla1234$";
          roles := [ ScopedRole "readWrite" "config";
                     BareRole "clusterAdmin" ] |},
       None);
      ("vcsshark",
       {| user := "root"; pwd := "root";
          roles := [ ScopedRole "clusterAdmin" "admin";
                     ScopedRole "readAnyDatabase" "admin";
                     BareRole "readWrite" ] |},
       Some majority_5000) ].
Proof. unfold transcript, setupMongoDB. step_groups. reflexivity. Qed.

Lemma setup_users_idem m : setup_users (setup_users m) = setup_users m.
Proof.
  apply map_eq. intros k. unfold setup_users.
  rewrite !lookup_insert. repeat case_decide; congruence.
Qed.

Lemma part_users_idem m : part_users (part_users m) = part_users m.
Proof.
  apply map_eq. intros k. unfold part_users.
  rewrite !lookup_insert. repeat case_decide; congruence.
Qed.

(** ** What a throwing statement does to the rest of a session

    Neither script contains a statement that throws when run in order,
    so the two lemmas below never apply to them; they record what each
    way of feeding a script does in general. *)

Lemma run_stops pol s rest sh e :
  pol = StopAtError →
  exec s sh = Throw e →
  run pol (s :: rest) sh = ([Event (db sh) s (Raised e)], sh).
Proof. intros -> Hexec. simpl. by rewrite Hexec. Qed.

Lemma run_continues pol s rest sh e :
  pol = ContinueAfterError →
  exec s sh = Throw e →
  run pol (s :: rest) sh =
    (Event (db sh) s (Raised e) :: (run pol rest sh).1, (run pol rest sh).2).
Proof. intros -> Hexec. simpl. by rewrite Hexec. Qed.

(** Why each group drops first: a second create of the same name, with
    no drop in between, is refused. *)
Lemma createUser_again doc wc sh v sh' :
  exec (CreateUser doc wc) sh = Normal v sh' →
  exec (CreateUser doc wc) sh' = Throw (UserAlreadyExists (db sh) (user doc)).
Proof.
  simpl. unfold createUser.
  destruct (users sh !! (db sh, user doc)) eqn:Hlook; [discriminate|].
  intros [= <- <-]. cbn [db users]. by rewrite lookup_insert_eq.
Qed.

(** Every statement of [part_000] is a statement of [setupMongoDB]. *)
Lemma part_000_incl (s : stmt) : In s part_000 → In s setupMongoDB.
Proof.
  intros Hin. cbn in Hin.
  repeat (destruct Hin as [<-|Hin]; [cbn; tauto|]). contradiction.
Qed.

(** ** The claims *)

(** C1. On a server without accounts, the whole of [setupMongoDB] runs
    through, and afterwards each of [testRun], [test], [admin] and
    [vcsshark] lists exactly one account, named [root]: with roles
    clusterAdmin\@admin, readAnyDatabase\@admin and readWrite on the
    database itself for [testRun], [test] and [vcsshark], and with roles
    readWrite\@config and clusterAdmin\@admin for [admin]. *)
Theorem C1_fresh_server_accounts (pol : error_policy) :
  forallb completed (transcript (run pol setupMongoDB fresh)) = true ∧
  getUsers "testRun" (final (run pol setupMongoDB fresh)) =
    [ ("root", {| acct_pwd := "balla1234$";
                  acct_roles := [ ("clusterAdmin", "admin");
                                  ("readAnyDatabase", "admin");
                                  ("readWrite", "testRun") ] |}) ] ∧
  getUsers "test" (final (run pol setupMongoDB fresh)) =
    [ ("root", {| acct_pwd := "root";
                  acct_roles := [ ("clusterAdmin", "admin");
                                  ("readAnyDatabase", "admin");
                                  ("readWrite", "test") ] |}) ] ∧
  getUsers "admin" (final (run pol setupMongoDB fresh)) =
    [ ("root", {| acct_pwd := "balla1234$";
                  acct_roles := [ ("readWrite", "config");
                                  ("clusterAdmin", "admin") ] |}) ] ∧
  getUsers "vcsshark" (final (run pol setupMongoDB fresh)) =
    [ ("root", {| acct_pwd := "root";
                  acct_roles := [ ("clusterAdmin", "admin");
                                  ("readAnyDatabase", "admin");
                                  ("readWrite", "vcsshark") ] |}) ].
Proof.
  split; [apply completed_setupMongoDB|].
  rewrite final_setupMongoDB.
  repeat split; vm_compute; reflexivity.
Qed.

(** C2. From any server state (a server without accounts included),
    running [setupMongoDB] and then running it again ends in the state
    the first run ended in; no statement of either run throws. *)
Theorem C2_setup_twice (pol1 pol2 : error_policy) (sh : shell) :
  let once := run pol1 setupMongoDB sh in
  let twice := run pol2 setupMongoDB (final once) in
  final twice = final once ∧
  forallb completed (transcript once) = true ∧
  forallb completed (transcript twice) = true.
Proof.
  cbv zeta. split; [|split; apply completed_setupMongoDB].
  rewrite !final_setupMongoDB. cbn [users]. by rewrite setup_users_idem.
Qed.

Ltac step_stmt :=
  first
    [ rewrite (run_cons_normal _ _ _ _ _ _ (use_switches _ _))
    | rewrite (run_cons_normal _ _ _ _ _ _ (dropUser_spec _ _)) ];
  cbn [db users fst snd].

(** Where the [use] statements of [setupMongoDB] are. *)
Lemma use_positions (n : nat) (d : string) :
  setupMongoDB !! n = Some (Use d) →
  (n = 0 ∧ d = "testRun") ∨ (n = 3 ∧ d = "test") ∨
  (n = 6 ∧ d = "admin") ∨ (n = 9 ∧ d = "vcsshark").
Proof.
  intros Huse.
  do 12 (destruct n as [|n];
         [ cbn in Huse;
           first [ discriminate Huse | injection Huse as <-; tauto ] | ]).
  cbn in Huse. discriminate Huse.
Qed.

(** C3. In [setupMongoDB], every [use d] is followed by
    [db.dropUser("root")] and then by a [db.createUser] for [root], and
    the session runs them in that order.  A session that stops after the
    drop and before the create leaves database [d] without a [root]
    account, whatever the server held before; only the create brings the
    account back. *)
Theorem C3_drop_before_create_not_atomic (n : nat) (d : string) :
  setupMongoDB !! n = Some (Use d) →
  setupMongoDB !! (n + 1) = Some (DropUser "root") ∧
  (∃ doc wc,
      setupMongoDB !! (n + 2) = Some (CreateUser doc wc) ∧ user doc = "root") ∧
  ∀ (pol : error_policy) (sh : shell),
    let stopped := run pol (take (n + 2) setupMongoDB) sh in
    let resumed := run pol (take (n + 3) setupMongoDB) sh in
    map ev_stmt (transcript stopped) = take (n + 2) setupMongoDB ∧
    db (final stopped) = d ∧
    users (final stopped) !! (d, "root") = None ∧
    map ev_stmt (transcript resumed) = take (n + 3) setupMongoDB ∧
    db (final resumed) = d ∧
    is_Some (users (final resumed) !! (d, "root")).
Proof.
  intros Huse.
  destruct (use_positions n d Huse) as [[-> ->]|[[-> ->]|[[-> ->]|[-> ->]]]].
  all: split; [reflexivity|].
  all: split; [eexists _, _; split; reflexivity|].
  all: intros pol sh; cbv zeta; unfold transcript, final, setupMongoDB.
  all: cbn [Nat.add take].
  all: step_groups; repeat step_stmt.
  all: cbn [run fst snd map db users provision].
  all: repeat split; try reflexivity.
  all: try apply lookup_delete_eq.
  all: rewrite lookup_insert_eq; eauto.
Qed.

Lemma C3_witness :
  let before := {| db := "test"; users := {[ ("admin", "root") := admin_root ]} |} in
  setupMongoDB !! 6%nat = Some (Use "admin") ∧
  users before !! ("admin", "root") = Some admin_root ∧
  users (final (run StopAtError (take 8 setupMongoDB) before)) !! ("admin", "root")
    = None.
Proof.
  cbv zeta.
  split; [reflexivity|]. split; [reflexivity|].
  pose proof (C3_drop_before_create_not_atomic 6 "admin" eq_refl) as H.
  destruct H as (_ & _ & H).
  destruct (H StopAtError
              {| db := "test"; users := {[ ("admin", "root") := admin_root ]} |})
    as (_ & _ & Hgone & _).
  exact Hgone.
Defined.

(** What [exec_on] does to the shell's [db], whatever the server. *)
Lemma exec_on_db srv i s sh :
  db (exec_on srv i s sh).2 = db_after (db sh) [s].
Proof. by destruct s. Qed.

Lemma exec_on_use_returns srv i name sh :
  (exec_on srv i (Use name) sh).1 = Returned Undefined.
Proof. reflexivity. Qed.

(** On [mongod], [run_on] is [run]. *)
Lemma run_on_mongod pol i script sh :
  run_on mongod pol i script sh = run pol script sh.
Proof.
  revert i sh. induction script as [|s rest IH]; intros i sh; [reflexivity|].
  cbn [run_on run].
  assert (Hexec : exec_on mongod i s sh =
                  match exec s sh with
                  | Normal v sh' => (Returned v, sh')
                  | Throw e => (Raised e, sh)
                  end).
  { destruct s as [name|username|doc wc]; [reflexivity| |];
      unfold exec_on, mongod, exec, dropUser, createUser;
      destruct sh as [d m]; cbn [db users].
    - by destruct (m !! (d, username)).
    - by destruct (m !! (d, user doc)). }
  rewrite Hexec.
  destruct (exec s sh) as [v sh'|e]; cbn [fst snd].
  - by rewrite IH.
  - destruct pol; [reflexivity|]. by rewrite IH.
Qed.

(** Whatever the server does, a session runs an initial stretch of the
    script, each statement in the database the file puts it in. *)
Lemma run_on_trace srv pol i script sh :
  map ev_stmt (run_on srv pol i script sh).1 =
    take (length (run_on srv pol i script sh).1) script ∧
  map ev_db (run_on srv pol i script sh).1 =
    take (length (run_on srv pol i script sh).1) (dbs_before (db sh) script) ∧
  db (run_on srv pol i script sh).2 =
    db_after (db sh) (map ev_stmt (run_on srv pol i script sh).1).
Proof.
  revert i sh. induction script as [|s rest IH]; intros i sh.
  { repeat split. }
  cbn [run_on].
  destruct (IH (S i) (exec_on srv i s sh).2) as (IHs & IHd & IHf).
  rewrite exec_on_db in IHd, IHf.
  assert (Hhead : ∀ o,
    map ev_stmt (Event (db sh) s o :: (run_on srv pol (S i) rest (exec_on srv i s sh).2).1) =
      take (length (Event (db sh) s o :: (run_on srv pol (S i) rest (exec_on srv i s sh).2).1))
           (s :: rest) ∧
    map ev_db (Event (db sh) s o :: (run_on srv pol (S i) rest (exec_on srv i s sh).2).1) =
      take (length (Event (db sh) s o :: (run_on srv pol (S i) rest (exec_on srv i s sh).2).1))
           (dbs_before (db sh) (s :: rest)) ∧
    db (run_on srv pol (S i) rest (exec_on srv i s sh).2).2 =
      db_after (db sh)
        (map ev_stmt (Event (db sh) s o :: (run_on srv pol (S i) rest (exec_on srv i s sh).2).1))).
  { intros o. cbn [map length ev_stmt ev_db]. rewrite IHs at 1. rewrite IHd at 1.
    rewrite IHf. by destruct s. }
  destruct (exec_on srv i s sh).1 as [v|e] eqn:Hout; [apply Hhead|].
  destruct pol; [|apply Hhead].
  cbn [fst snd map length ev_stmt ev_db]. rewrite exec_on_db.
  destruct s as [name| |]; [|by repeat split..].
  rewrite exec_on_use_returns in Hout. discriminate Hout.
Qed.

(** A session goes through the whole script when thrown errors do not
    stop it, and also when nothing throws. *)
Lemma run_on_whole srv pol i script sh :
  pol = ContinueAfterError ∨ forallb completed (run_on srv pol i script sh).1 = true →
  length (run_on srv pol i script sh).1 = length script.
Proof.
  revert i sh. induction script as [|s rest IH]; intros i sh Hwhole; [reflexivity|].
  revert Hwhole. cbn [run_on].
  destruct (exec_on srv i s sh).1 as [v|e] eqn:Hout.
  - cbn [fst length forallb]. intros Hwhole. f_equal. apply IH.
    destruct Hwhole as [->|Hall]; [by left|right].
    by apply andb_prop in Hall as [_ Hall].
  - destruct pol.
    + cbn [fst forallb completed ev_outcome andb]. intros [Hpol|Hall]; discriminate.
    + cbn [fst length]. intros _. f_equal. apply IH. by left.
Qed.

(** C5. A session of [setupMongoDB] runs the statements of the file in
    the order of the file and nothing else decides what runs next:

    - on the server of this file, from any state, all twelve statements
      run, none throws, the three statements of each group run with the
      shell on [testRun], then [test], then [admin], then [vcsshark], and
      the shell is left on [vcsshark];

    - on any server at all, whatever its calls answer, throw or do to
      the accounts: when a throw does not end the session the same
      twelve statements run with the shell on the same databases; when a
      throw ends the session, what has run is an initial stretch of the
      file with the shell on the same databases up to there, and the
      whole of it if nothing threw.

    The server of this file is one of these servers. *)
Theorem C5_source_order (pol : error_policy) (srv : server) (sh : shell) :
  (map ev_stmt (transcript (run pol setupMongoDB sh)) = setupMongoDB ∧
   forallb completed (transcript (run pol setupMongoDB sh)) = true ∧
   activated (transcript (run pol setupMongoDB sh)) =
     ["testRun"; "test"; "admin"; "vcsshark"] ∧
   map ev_db (transcript (run pol setupMongoDB sh)) =
     [ db sh; "testRun"; "testRun";
       "testRun"; "test"; "test";
       "test"; "admin"; "admin";
       "admin"; "vcsshark"; "vcsshark" ] ∧
   db (final (run pol setupMongoDB sh)) = "vcsshark") ∧
  (map ev_stmt (transcript (run_on srv ContinueAfterError 0 setupMongoDB sh)) =
     setupMongoDB ∧
   map ev_db (transcript (run_on srv ContinueAfterError 0 setupMongoDB sh)) =
     [ db sh; "testRun"; "testRun";
       "testRun"; "test"; "test";
       "test"; "admin"; "admin";
       "admin"; "vcsshark"; "vcsshark" ] ∧
   db (final (run_on srv ContinueAfterError 0 setupMongoDB sh)) = "vcsshark") ∧
  (map ev_stmt (transcript (run_on srv StopAtError 0 setupMongoDB sh)) =
     take (length (transcript (run_on srv StopAtError 0 setupMongoDB sh)))
          setupMongoDB ∧
   map ev_db (transcript (run_on srv StopAtError 0 setupMongoDB sh)) =
     take (length (transcript (run_on srv StopAtError 0 setupMongoDB sh)))
          [ db sh; "testRun"; "testRun";
            "testRun"; "test"; "test";
            "test"; "admin"; "admin";
            "admin"; "vcsshark"; "vcsshark" ] ∧
   (forallb completed (transcript (run_on srv StopAtError 0 setupMongoDB sh)) = true →
    map ev_stmt (transcript (run_on srv StopAtError 0 setupMongoDB sh)) =
      setupMongoDB ∧
    db (final (run_on srv StopAtError 0 setupMongoDB sh)) = "vcsshark")) ∧
  run_on mongod pol 0 setupMongoDB sh = run pol setupMongoDB sh.
Proof.
  unfold transcript, final.
  split; [|split; [|split; [|apply run_on_mongod]]].
  - split; [apply stmts_setupMongoDB|].
    split; [apply completed_setupMongoDB|].
    unfold setupMongoDB. step_groups. repeat split; reflexivity.
  - destruct (run_on_trace srv ContinueAfterError 0 setupMongoDB sh)
      as (Hs & Hd & Hf).
    pose proof (run_on_whole srv ContinueAfterError 0 setupMongoDB sh
                  (or_introl eq_refl)) as Hlen.
    rewrite Hlen in Hs, Hd. rewrite Hf, Hs.
    split; [reflexivity|]. split; [exact Hd|reflexivity].
  - destruct (run_on_trace srv StopAtError 0 setupMongoDB sh)
      as (Hs & Hd & Hf).
    split; [exact Hs|]. split; [exact Hd|].
    intros Hall.
    pose proof (run_on_whole srv StopAtError 0 setupMongoDB sh
                  (or_intror Hall)) as Hlen.
    rewrite Hlen in Hs. rewrite Hf, Hs. split; reflexivity.
Qed.

Lemma C5_witness :
  forallb completed (transcript (run_on mongod StopAtError 0 setupMongoDB fresh))
    = true ∧
  db (final (run_on mongod StopAtError 0 setupMongoDB fresh)) = "vcsshark".
Proof.
  assert (Hall : forallb completed
                   (transcript (run_on mongod StopAtError 0 setupMongoDB fresh))
                 = true) by (vm_compute; reflexivity).
  split; [exact Hall|].
  destruct (C5_source_order StopAtError mongod fresh)
    as (_ & _ & (_ & _ & Hwhole) & _).
  exact (proj2 (Hwhole Hall)).
Defined.

(** C6. Every [createUser] of [setupMongoDB] names a non-empty account
    and gives a non-empty role list, and every role written as a
    [{ role, db }] object has a non-empty role name and a non-empty
    database. *)
Theorem C6_entries_well_formed (doc : user_doc) (wc : option write_concern) :
  In (CreateUser doc wc) setupMongoDB →
  user doc ≠ "" ∧
  roles doc ≠ [] ∧
  ∀ role d, In (ScopedRole role d) (roles doc) → role ≠ "" ∧ d ≠ "".
Proof.
  intros Hin. cbn in Hin.
  repeat (destruct Hin as [Hin|Hin]; [ try discriminate Hin | ]);
    try contradiction.
  all: injection Hin as <- <-; cbn.
  all: split; [discriminate|]; split; [discriminate|].
  all: intros role d Hrole.
  all: repeat (destruct Hrole as [Hrole|Hrole];
               [ try discriminate Hrole | ]); try contradiction.
  all: injection Hrole as <- <-; split; discriminate.
Qed.

Lemma C6_witness :
  In (CreateUser {| user := "root"; pwd := "balla1234$";
                    roles := [ ScopedRole "readWrite" "config";
                               BareRole "clusterAdmin" ] |} None)
     setupMongoDB ∧
  "root" ≠ "" ∧
  ("readWrite" ≠ "" ∧ "config" ≠ "").
Proof.
  assert (Hin : In (CreateUser {| user := "root"; pwd := "balla1234$";
                                  roles := [ ScopedRole "readWrite" "config";
                                             BareRole "clusterAdmin" ] |} None)
                   setupMongoDB).
  { cbn. do 8 right. left. reflexivity. }
  split; [exact Hin|].
  destruct (C6_entries_well_formed _ _ Hin) as (Hname & _ & Hroles).
  split; [exact Hname|].
  apply Hroles. cbn. left. reflexivity.
Defined.

(** C7. Every [createUser] of [setupMongoDB] that passes a write concern
    passes [{ w: "majority", wtimeout: 5000 }]; in particular the timeout
    is a non-negative integer. *)
Theorem C7_wtimeout (doc : user_doc) (wc : write_concern) :
  In (CreateUser doc (Some wc)) setupMongoDB →
  (0 ≤ wtimeout wc)%Z ∧ wtimeout wc = 5000%Z ∧ w wc = "majority".
Proof.
  intros Hin. cbn in Hin.
  repeat (destruct Hin as [Hin|Hin]; [ try discriminate Hin | ]);
    try contradiction.
  all: injection Hin as <- <-; cbn; repeat split; lia.
Qed.

Lemma C7_witness :
  In (CreateUser {| user := "root"; pwd := "root";
                    roles := [ ScopedRole "clusterAdmin" "admin";
                               ScopedRole "readAnyDatabase" "admin";
                               BareRole "readWrite" ] |}
                 (Some {| w := "majority"; wtimeout := 5000 |}))
     setupMongoDB ∧
  (0 ≤ 5000)%Z.
Proof.
  assert (Hin : In (CreateUser {| user := "root"; pwd := "root";
                                  roles := [ ScopedRole "clusterAdmin" "admin";
                                             ScopedRole "readAnyDatabase" "admin";
                                             BareRole "readWrite" ] |}
                               (Some {| w := "majority"; wtimeout := 5000 |}))
                   setupMongoDB).
  { cbn. do 5 right. left. reflexivity. }
  split; [exact Hin|].
  exact (proj1 (C7_wtimeout _ _ Hin)).
Defined.

(** C8. The passwords are not the same everywhere: [setupMongoDB] creates
    [root] with password [balla1234$] on [testRun] and on [admin], and
    with password [root] on [test] and on [vcsshark]; these are the
    passwords the four accounts have when the script is through. *)
Theorem C8_passwords (pol : error_policy) (sh : shell) :
  map (λ c, (c.1.1, user c.1.2, pwd c.1.2))
      (creations (transcript (run pol setupMongoDB sh))) =
    [ ("testRun", "root", "balla1234$");
      ("test", "root", "root");
      ("admin", "root", "balla1234$");
      ("vcsshark", "root", "root") ] ∧
  acct_pwd <$> users (final (run pol setupMongoDB sh)) !! ("testRun", "root")
    = Some "balla1234$" ∧
  acct_pwd <$> users (final (run pol setupMongoDB sh)) !! ("test", "root")
    = Some "root" ∧
  acct_pwd <$> users (final (run pol setupMongoDB sh)) !! ("admin", "root")
    = Some "balla1234$" ∧
  acct_pwd <$> users (final (run pol setupMongoDB sh)) !! ("vcsshark", "root")
    = Some "root" ∧
  "balla1234$" ≠ "root".
Proof.
  split; [by rewrite creations_setupMongoDB|].
  rewrite final_setupMongoDB. cbn [users]. unfold setup_users.
  repeat split; try discriminate.
  all: rewrite !lookup_insert; repeat case_decide; try congruence; reflexivity.
Qed.

(** C9. Of the four [createUser] statements of [setupMongoDB], exactly
    one, the one run on [admin], has no write concern; those run on
    [testRun], [test] and [vcsshark] pass
    [{ w: "majority", wtimeout: 5000 }]. *)
Theorem C9_write_concerns (pol : error_policy) (sh : shell) :
  map (λ c, (c.1.1, c.2)) (creations (transcript (run pol setupMongoDB sh))) =
    [ ("testRun", Some {| w := "majority"; wtimeout := 5000 |});
      ("test", Some {| w := "majority"; wtimeout := 5000 |});
      ("admin", None);
      ("vcsshark", Some {| w := "majority"; wtimeout := 5000 |}) ] ∧
  length (List.filter is_create setupMongoDB) = 4 ∧
  length (List.filter is_create_without_wc setupMongoDB) = 1.
Proof.
  split; [by rewrite creations_setupMongoDB|].
  split; reflexivity.
Qed.

Lemma creations_part_000 pol sh :
  map (λ c, c.1.1) (creations (transcript (run pol part_000 sh))) =
    ["testRun"; "admin"].
Proof. unfold transcript, part_000. step_groups. reflexivity. Qed.

(** C10. [part_000] consists of the [testRun] group and the [admin] group
    of [setupMongoDB], statement for statement, and creates accounts on
    these two databases only.  Run from any state, it leaves [testRun] and
    [admin] with the accounts [setupMongoDB] leaves there from the same
    state (the [root] account with the same password and roles), and
    leaves the accounts of [test] and [vcsshark] as they were. *)
Theorem C10_part_000 (pol1 pol2 : error_policy) (sh : shell) :
  part_000 = (take 3 setupMongoDB ++ take 3 (drop 6 setupMongoDB))%list ∧
  map (λ c, c.1.1) (creations (transcript (run pol1 part_000 sh))) =
    ["testRun"; "admin"] ∧
  forallb completed (transcript (run pol1 part_000 sh)) = true ∧
  (∀ u, users (final (run pol1 part_000 sh)) !! ("testRun", u) =
        users (final (run pol2 setupMongoDB sh)) !! ("testRun", u)) ∧
  (∀ u, users (final (run pol1 part_000 sh)) !! ("admin", u) =
        users (final (run pol2 setupMongoDB sh)) !! ("admin", u)) ∧
  users (final (run pol1 part_000 sh)) !! ("testRun", "root") =
    Some {| acct_pwd := "balla1234$";
            acct_roles := [ ("clusterAdmin", "admin");
                            ("readAnyDatabase", "admin");
                            ("readWrite", "testRun") ] |} ∧
  users (final (run pol1 part_000 sh)) !! ("admin", "root") =
    Some {| acct_pwd := "balla1234$";
            acct_roles := [ ("readWrite", "config");
                            ("clusterAdmin", "admin") ] |} ∧
  (∀ u, users (final (run pol1 part_000 sh)) !! ("test", u) =
        users sh !! ("test", u)) ∧
  (∀ u, users (final (run pol1 part_000 sh)) !! ("vcsshark", u) =
        users sh !! ("vcsshark", u)).
Proof.
  split; [reflexivity|].
  split; [apply creations_part_000|].
  split; [unfold transcript, part_000; step_groups; reflexivity|].
  rewrite final_part_000, final_setupMongoDB. cbn [users].
  unfold part_users, setup_users.
  repeat split; try intros u.
  all: rewrite !lookup_insert; repeat case_decide; try congruence; reflexivity.
Qed.

(** ** Further properties of the two scripts *)

Ltac solve_lookup :=
  repeat first [ rewrite lookup_insert | rewrite lookup_delete ];
  repeat case_decide; first [ reflexivity | congruence ].

(** X1. Whatever the server holds and whichever database the shell is on
    when [setupMongoDB] starts, the session ends on [vcsshark] and the four
    [root] accounts are the ones the script spells out: an earlier [root]
    on one of the four databases loses its old password and roles. *)
Theorem X1_setup_replaces_root (pol : error_policy) (sh : shell) :
  db (final (run pol setupMongoDB sh)) = "vcsshark" ∧
  users (final (run pol setupMongoDB sh)) !! ("testRun", "root") =
    Some {| acct_pwd := "balla1234$";
            acct_roles := [ ("clusterAdmin", "admin");
                            ("readAnyDatabase", "admin");
                            ("readWrite", "testRun") ] |} ∧
  users (final (run pol setupMongoDB sh)) !! ("test", "root") =
    Some {| acct_pwd := "root";
            acct_roles := [ ("clusterAdmin", "admin");
                            ("readAnyDatabase", "admin");
                            ("readWrite", "test") ] |} ∧
  users (final (run pol setupMongoDB sh)) !! ("admin", "root") =
    Some {| acct_pwd := "balla1234$";
            acct_roles := [ ("readWrite", "config");
                            ("clusterAdmin", "admin") ] |} ∧
  users (final (run pol setupMongoDB sh)) !! ("vcsshark", "root") =
    Some {| acct_pwd := "root";
            acct_roles := [ ("clusterAdmin", "admin");
                            ("readAnyDatabase", "admin");
                            ("readWrite", "vcsshark") ] |} ∧
  ∀ d0 : string,
    final (run pol setupMongoDB {| db := d0; users := users sh |}) =
    final (run pol setupMongoDB sh).
Proof.
  rewrite final_setupMongoDB. cbn [db users]. unfold setup_users.
  repeat split; try solve_lookup.
  intros d0. by rewrite final_setupMongoDB.
Qed.

(** X2. [setupMongoDB] touches nothing but the [root] accounts of its
    four databases: an account with another name, or on another database,
    is after the run what it was before. *)
Theorem X2_setup_frame (pol : error_policy) (sh : shell) (d u : string) :
  u ≠ "root" ∨
    (d ≠ "testRun" ∧ d ≠ "test" ∧ d ≠ "admin" ∧ d ≠ "vcsshark") →
  users (final (run pol setupMongoDB sh)) !! (d, u) = users sh !! (d, u).
Proof.
  intros Hother. rewrite final_setupMongoDB. cbn [users]. unfold setup_users.
  rewrite !lookup_insert. repeat case_decide; try reflexivity.
  all: exfalso; destruct Hother as [Hu|(Ha & Hb & Hc & Hd)]; congruence.
Qed.

Lemma X2_witness :
  users (final (run StopAtError setupMongoDB
                    {| db := "test";
                       users := {[ ("testRun", "alice") := test_root ]} |}))
    !! ("testRun", "alice") = Some test_root.
Proof.
  rewrite (X2_setup_frame StopAtError _ "testRun" "alice");
    [ reflexivity | left; discriminate ].
Defined.

(** X3. [setupMongoDB] never removes an account for good: the accounts
    on the server afterwards are those that were there before together
    with the four [root] accounts, so at most four more than before. *)
Theorem X3_setup_domain (pol : error_policy) (sh : shell) :
  dom (users (final (run pol setupMongoDB sh))) =
    dom (users sh) ∪
    ({[ ("testRun", "root"); ("test", "root");
        ("admin", "root"); ("vcsshark", "root") ]} : gset (string * string)) ∧
  (size (users sh) ≤ size (users (final (run pol setupMongoDB sh))))%nat ∧
  (size (users (final (run pol setupMongoDB sh))) ≤ size (users sh) + 4)%nat.
Proof.
  rewrite final_setupMongoDB. cbn [users]. unfold setup_users.
  assert (Hdom :
    dom (<[("vcsshark", "root") := vcsshark_root]>
           (<[("admin", "root") := admin_root]>
              (<[("test", "root") := test_root]>
                 (<[("testRun", "root") := testRun_root]> (users sh))))) =
      dom (users sh) ∪
      ({[ ("testRun", "root"); ("test", "root");
          ("admin", "root"); ("vcsshark", "root") ]} : gset (string * string))).
  { rewrite !dom_insert_L. apply set_eq. intros k.
    rewrite !elem_of_union, !elem_of_singleton. tauto. }
  split; [exact Hdom|].
  rewrite <- !size_dom, Hdom.
  split.
  - apply subseteq_size, union_subseteq_l.
  - rewrite size_union_alt.
    assert (size (({[ ("testRun", "root"); ("test", "root");
                      ("admin", "root"); ("vcsshark", "root") ]}
                    : gset (string * string)) ∖ dom (users sh)) ≤ 4)%nat; [|lia].
    etransitivity.
    + apply subseteq_size. intros k Hk. apply elem_of_difference in Hk.
      exact (proj1 Hk).
    + by vm_compute.
Qed.

(** X4. [setupMongoDB] can be cut off after any number of statements
    without a throw and without a half-written account: the statements
    run so far are the first ones of the file, all of them completed, and
    on each of the four databases [root] is then either what it was before
    the session, or missing (between a drop and its create), or already
    the account the full script installs. *)
Theorem X4_setup_interrupted (n : nat) (pol : error_policy) (sh : shell)
    (d : string) :
  d = "testRun" ∨ d = "test" ∨ d = "admin" ∨ d = "vcsshark" →
  map ev_stmt (transcript (run pol (take n setupMongoDB) sh)) =
    take n setupMongoDB ∧
  forallb completed (transcript (run pol (take n setupMongoDB) sh)) = true ∧
  (users (final (run pol (take n setupMongoDB) sh)) !! (d, "root") =
     users sh !! (d, "root") ∨
   users (final (run pol (take n setupMongoDB) sh)) !! (d, "root") = None ∨
   users (final (run pol (take n setupMongoDB) sh)) !! (d, "root") =
     users (final (run pol setupMongoDB sh)) !! (d, "root")).
Proof.
  intros Hd.
  rewrite final_setupMongoDB. cbn [users]. unfold setup_users.
  do 12 (destruct n as [|n];
    [ unfold transcript, final, setupMongoDB; cbn [take];
      step_groups; repeat step_stmt;
      cbn [run fst snd map forallb completed ev_outcome andb db users provision];
      unfold stored, testRun_root, test_root, admin_root, vcsshark_root;
      cbn [map resolve user pwd roles];
      split; [reflexivity|]; split; [reflexivity|];
      destruct Hd as [-> | [-> | [-> | ->]]];
      first [ left; solve_lookup
            | right; left; solve_lookup
            | right; right; solve_lookup ]
    | ]).
  rewrite take_ge by (cbn; lia).
  split; [apply stmts_setupMongoDB|].
  split; [apply completed_setupMongoDB|].
  right; right. rewrite final_setupMongoDB. reflexivity.
Qed.

Lemma X4_witness :
  users (final (run StopAtError (take 5 setupMongoDB) fresh)) !! ("test", "root")
    = users fresh !! ("test", "root") ∨
  users (final (run StopAtError (take 5 setupMongoDB) fresh)) !! ("test", "root")
    = None ∨
  users (final (run StopAtError (take 5 setupMongoDB) fresh)) !! ("test", "root")
    = users (final (run StopAtError setupMongoDB fresh)) !! ("test", "root").
Proof.
  exact (proj2 (proj2 (X4_setup_interrupted 5 StopAtError fresh "test"
                         (or_intror (or_introl eq_refl))))).
Defined.

(** X5. The four [dropUser] calls of [setupMongoDB] answer, in order,
    whether [root] existed on [testRun], [test], [admin] and [vcsshark]
    when the session started; when the script is run again right after a
    run, all four answer [true]. *)
Theorem X5_drop_answers (pol1 pol2 : error_policy) (sh : shell) :
  drop_answers (transcript (run pol1 setupMongoDB sh)) =
    [ Returned (Boolean (bool_decide (is_Some (users sh !! ("testRun", "root")))));
      Returned (Boolean (bool_decide (is_Some (users sh !! ("test", "root")))));
      Returned (Boolean (bool_decide (is_Some (users sh !! ("admin", "root")))));
      Returned (Boolean (bool_decide (is_Some (users sh !! ("vcsshark", "root"))))) ] ∧
  drop_answers
    (transcript (run pol2 setupMongoDB (final (run pol1 setupMongoDB sh)))) =
    [ Returned (Boolean true); Returned (Boolean true);
      Returned (Boolean true); Returned (Boolean true) ].
Proof.
  assert (Hfirst : ∀ pol sh0,
    drop_answers (transcript (run pol setupMongoDB sh0)) =
      [ Returned (Boolean (bool_decide (is_Some (users sh0 !! ("testRun", "root")))));
        Returned (Boolean (bool_decide (is_Some (users sh0 !! ("test", "root")))));
        Returned (Boolean (bool_decide (is_Some (users sh0 !! ("admin", "root")))));
        Returned (Boolean (bool_decide (is_Some (users sh0 !! ("vcsshark", "root"))))) ]).
  { intros pol sh0. unfold transcript, setupMongoDB. step_groups.
    cbn [run fst drop_answers omap list_omap ev_stmt ev_outcome users provision].
    repeat f_equal.
    all: rewrite ?lookup_insert; repeat case_decide; congruence. }
  split; [apply Hfirst|].
  rewrite Hfirst, final_setupMongoDB. cbn [users]. unfold setup_users.
  repeat f_equal.
  all: apply bool_decide_eq_true_2.
  all: rewrite ?lookup_insert; repeat case_decide; try congruence; eauto.
Qed.

(** X6. [part_000] is safe to repeat: from any server state a second run
    ends in the state the first run ended in, and no statement of either
    run throws. *)
Theorem X6_part_000_twice (pol1 pol2 : error_policy) (sh : shell) :
  final (run pol2 part_000 (final (run pol1 part_000 sh))) =
    final (run pol1 part_000 sh) ∧
  forallb completed (transcript (run pol1 part_000 sh)) = true ∧
  forallb completed
    (transcript (run pol2 part_000 (final (run pol1 part_000 sh)))) = true.
Proof.
  assert (Hdone : ∀ pol sh0,
    forallb completed (transcript (run pol part_000 sh0)) = true).
  { intros pol sh0. unfold transcript, part_000. step_groups. reflexivity. }
  split; [|split; apply Hdone].
  rewrite !final_part_000. cbn [users]. by rewrite part_users_idem.
Qed.

(** X7. [part_000] touches nothing but [root] on [testRun] and [root] on
    [admin]: every other account, on whatever database, is after the run
    what it was before. *)
Theorem X7_part_000_frame (pol : error_policy) (sh : shell) (d u : string) :
  (d, u) ≠ ("testRun", "root") →
  (d, u) ≠ ("admin", "root") →
  users (final (run pol part_000 sh)) !! (d, u) = users sh !! (d, u).
Proof.
  intros Hne1 Hne2. rewrite final_part_000. cbn [users]. unfold part_users.
  by rewrite !lookup_insert_ne.
Qed.

Lemma X7_witness :
  users (final (run ContinueAfterError part_000
                    {| db := "admin";
                       users := {[ ("test", "root") := admin_root ]} |}))
    !! ("test", "root") = Some admin_root.
Proof.
  rewrite (X7_part_000_frame ContinueAfterError _ "test" "root");
    [ reflexivity | discriminate | discriminate ].
Defined.

(** X8. Whatever the server holds, a session of [part_000] runs the
    statements of the file once each in file order, none throws, the
    databases switched to are [testRun] and then [admin], and the shell is
    left on [admin]. *)
Theorem X8_part_000_source_order (pol : error_policy) (sh : shell) :
  map ev_stmt (transcript (run pol part_000 sh)) = part_000 ∧
  forallb completed (transcript (run pol part_000 sh)) = true ∧
  activated (transcript (run pol part_000 sh)) = ["testRun"; "admin"] ∧
  db (final (run pol part_000 sh)) = "admin".
Proof.
  unfold transcript, final, part_000. step_groups.
  repeat split; reflexivity.
Qed.

(** X9. [setupMongoDB] absorbs [part_000]: running [part_000] first and
    [setupMongoDB] after it ends in the state [setupMongoDB] alone ends
    in, and running [part_000] after [setupMongoDB] changes no account
    and only moves the shell to [admin]. *)
Theorem X9_scripts_compose (pol1 pol2 : error_policy) (sh : shell) :
  final (run pol2 setupMongoDB (final (run pol1 part_000 sh))) =
    final (run pol2 setupMongoDB sh) ∧
  users (final (run pol2 part_000 (final (run pol1 setupMongoDB sh)))) =
    users (final (run pol1 setupMongoDB sh)) ∧
  db (final (run pol2 part_000 (final (run pol1 setupMongoDB sh)))) = "admin".
Proof.
  rewrite !final_part_000, !final_setupMongoDB. cbn [db users].
  split; [f_equal|split; [|reflexivity]].
  all: apply map_eq; intros k; unfold setup_users, part_users.
  all: rewrite !lookup_insert; repeat case_decide; congruence.
Qed.

(** X10. Cutting [setupMongoDB] off anywhere leaves every account other
    than the four [root] accounts as it was before the session. *)
Theorem X10_setup_interrupted_frame (n : nat) (pol : error_policy)
    (sh : shell) (d u : string) :
  u ≠ "root" ∨
    (d ≠ "testRun" ∧ d ≠ "test" ∧ d ≠ "admin" ∧ d ≠ "vcsshark") →
  users (final (run pol (take n setupMongoDB) sh)) !! (d, u) =
    users sh !! (d, u).
Proof.
  intros Hother.
  assert (Hne : ∀ d', d' = "testRun" ∨ d' = "test" ∨ d' = "admin" ∨ d' = "vcsshark" →
                      (d', "root") ≠ (d, u)).
  { intros d' Hd' [= -> <-].
    destruct Hother as [Hu|(Ha & Hb & Hc & Hd)]; [congruence|].
    destruct Hd' as [-> | [-> | [-> | ->]]]; congruence. }
  do 12 (destruct n as [|n];
    [ unfold final, setupMongoDB; cbn [take];
      step_groups; repeat step_stmt;
      cbn [run snd db users provision user];
      repeat first [ rewrite lookup_insert_ne by (apply Hne; tauto)
                   | rewrite lookup_delete_ne by (apply Hne; tauto) ];
      reflexivity
    | ]).
  rewrite take_ge by (cbn; lia).
  rewrite final_setupMongoDB. cbn [users]. unfold setup_users.
  repeat rewrite lookup_insert_ne by (apply Hne; tauto).
  reflexivity.
Qed.

Lemma X10_witness :
  users (final (run StopAtError (take 7 setupMongoDB)
                    {| db := "test";
                       users := {[ ("admin", "alice") := admin_root ]} |}))
    !! ("admin", "alice") = Some admin_root.
Proof.
  rewrite (X10_setup_interrupted_frame 7 StopAtError _ "admin" "alice");
    [ reflexivity | left; discriminate ].
Defined.
